(** * Context accessor hooks of the todo frontend

    A shallow embedding of

      - [frontend/src/hooks/useTask.ts]  (function [useTask])
      - [frontend/src/hooks/useUI.ts]    (function [useUI])

    Both hooks read a React context with [useContext], test the value that
    was read with the JavaScript operator [!], throw [new Error (...)] when
    the test succeeds and return the value otherwise.

    The embedding keeps the three ingredients apart:

      - [JS]     : JavaScript values, [ToBoolean] and strict equality;
      - [React]  : the chain of Providers above the calling component, the
                   hook monad (state passing plus abrupt completion) and
                   [useContext];
      - the two hooks themselves, written in that monad. *)

From Stdlib Require Import Bool ZArith List String.
From Stdlib Require Import Floats.SpecFloat.
Import ListNotations.

Local Open Scope string_scope.

(* ================================================================== *)
(** ** JavaScript values *)
(* ================================================================== *)

Module JS.

(** The language types of ECMAScript.  A Number is an IEEE 754 binary64
    datum ([spec_float] has both zeros, both infinities and NaN); an
    Object (functions included) is known by its identity on the heap, a
    Symbol by its identity as well. *)
Inductive Value : Type :=
| Undefined
| Null
| Boolean (b : bool)
| Number (x : spec_float)
| BigInt (n : Z)
| String (s : string)
| Symbol (id : positive)
| Object (ref : positive).

(** The abstract operation ToBoolean: what [if (v)] and [!v] look at. *)
Definition ToBoolean (v : Value) : bool :=
  match v with
  | Undefined => false
  | Null => false
  | Boolean b => b
  | Number (S754_zero _) => false
  | Number S754_nan => false
  | Number _ => true
  | BigInt n => negb (n =? 0)%Z
  | String s => negb (s =? "")%string
  | Symbol _ => true
  | Object _ => true
  end.

(** The prefix operator [!]. *)
Definition not (v : Value) : bool := negb (ToBoolean v).

(** The abstract operation IsStrictlyEqual, the operator [===]:
    Number::equal on two Numbers, SameValueNonNumber on two values of one
    other type, [false] across types. *)
Definition IsStrictlyEqual (x y : Value) : bool :=
  match x, y with
  | Undefined, Undefined => true
  | Null, Null => true
  | Boolean a, Boolean b => Bool.eqb a b
  | Number a, Number b => SFeqb a b
  | BigInt a, BigInt b => (a =? b)%Z
  | String a, String b => (a =? b)%string
  | Symbol a, Symbol b => (a =? b)%positive
  | Object a, Object b => (a =? b)%positive
  | _, _ => false
  end.

(** An instance of the built-in [Error]: [new Error (msg)] has the name
    ["Error"] of [Error.prototype] and the message it was given. *)
Record Error : Type := mkError { name : string; message : string }.

Definition new_Error (msg : string) : Error :=
  {| name := "Error"; message := msg |}.

(** How the evaluation of a function body ends: with [return v] or with
    [throw e]. *)
Inductive Completion (A : Type) : Type :=
| Normal (a : A)
| Throw (e : Error).

Arguments Normal {A} a.
Arguments Throw {A} e.

Definition throws {A : Type} (c : Completion A) : Prop :=
  exists e, c = Throw e.

Definition returns {A : Type} (c : Completion A) : Prop :=
  exists a, c = Normal a.

End JS.

(* ================================================================== *)
(** ** React contexts and the hook monad *)
(* ================================================================== *)

Module React.

(** The two context objects the hooks import, [TaskContext] from
    [@/context/TaskContext] and [UIContext] from [@/context/UIContext]. *)
Inductive Context : Type :=
| TaskContext
| UIContext.

Definition Context_eqb (c d : Context) : bool :=
  match c, d with
  | TaskContext, TaskContext => true
  | UIContext, UIContext => true
  | _, _ => false
  end.

(** Modelled from the spec: the modules [@/context/TaskContext] and
    [@/context/UIContext], which create the two contexts, are not part of
    the sources at hand.  The specification gives the container the shape
    [T | undefined] and says that outside the Provider's subtree the
    container is undefined: the default value handed to [createContext]
    is [undefined] for both. *)
Definition defaultValue (c : Context) : JS.Value := JS.Undefined.

(** A mounted [<C.Provider value={v}>]. *)
Record Provider : Type := mkProvider { provides : Context; value : JS.Value }.

(** The Providers above the component that runs the hook, the nearest one
    first.  This is the ambient state of a hook call. *)
Definition Ancestry : Type := list Provider.

(** The value of the nearest Provider of [c], if there is one. *)
Fixpoint nearest (c : Context) (tree : Ancestry) : option JS.Value :=
  match tree with
  | [] => None
  | p :: above =>
      if Context_eqb (provides p) c then Some (value p) else nearest c above
  end.

(** The context container of [c] as seen from the calling component. *)
Definition container (c : Context) (tree : Ancestry) : JS.Value :=
  match nearest c tree with
  | Some v => v
  | None => defaultValue c
  end.

(** A hook runs against the ambient state and ends normally or abruptly;
    the state is threaded so that what a call leaves behind can be
    stated. *)
Definition Hook (A : Type) : Type := Ancestry -> JS.Completion A * Ancestry.

Definition ret {A : Type} (a : A) : Hook A :=
  fun tree => (JS.Normal a, tree).

Definition throw {A : Type} (e : JS.Error) : Hook A :=
  fun tree => (JS.Throw e, tree).

Definition bind {A B : Type} (m : Hook A) (k : A -> Hook B) : Hook B :=
  fun tree =>
    match m tree with
    | (JS.Normal a, tree') => k a tree'
    | (JS.Throw e, tree') => (JS.Throw e, tree')
    end.

(** [useContext (C)]: the current value of the container of [C]. *)
Definition useContext (c : Context) : Hook JS.Value :=
  fun tree => (JS.Normal (container c tree), tree).

(** The two components of a finished call. *)
Definition outcome {A : Type} (r : JS.Completion A * Ancestry) : JS.Completion A :=
  fst r.

Definition ambient {A : Type} (r : JS.Completion A * Ancestry) : Ancestry :=
  snd r.

End React.

Import React.

Declare Scope hook_scope.
Delimit Scope hook_scope with hook.
Notation "'const' x <- m ;; k" := (bind m (fun x => k))
  (at level 61, x name, m at next level, right associativity) : hook_scope.

Local Open Scope hook_scope.

(* ================================================================== *)
(** ** The hooks *)
(* ================================================================== *)

(** [frontend/src/hooks/useTask.ts], lines 12 to 20. *)
Definition useTask : Hook JS.Value :=
  const context <- useContext TaskContext ;;
  if JS.not context then
    throw (JS.new_Error "useTask must be used within a TaskProvider")
  else
    ret context.

(** [frontend/src/hooks/useUI.ts], lines 11 to 19. *)
Definition useUI : Hook JS.Value :=
  const context <- useContext UIContext ;;
  if JS.not context then
    throw (JS.new_Error "useUI must be used within a UIProvider")
  else
    ret context.

(** The pattern both hooks are written after, as the specification words it
    (component 4.1, "generic pattern, instantiated twice"): read the
    container, fail with an error that names the missing Provider, return
    the value that was read otherwise. *)
Definition contextAccessor (c : Context) (msg : string) : Hook JS.Value :=
  const context <- useContext c ;;
  if JS.not context then throw (JS.new_Error msg) else ret context.

(** The errors of the two hooks. *)
Definition MissingTaskProvider : JS.Error :=
  JS.new_Error "useTask must be used within a TaskProvider".

Definition MissingUIProvider : JS.Error :=
  JS.new_Error "useUI must be used within a UIProvider".

(** The accessor the application exports for each context, and the error
    that accessor throws. *)
Definition accessor (c : Context) : Hook JS.Value :=
  match c with
  | TaskContext => useTask
  | UIContext => useUI
  end.

Definition MissingProviderError (c : Context) : JS.Error :=
  match c with
  | TaskContext => MissingTaskProvider
  | UIContext => MissingUIProvider
  end.

(** Two calls in a row within one render. *)
Definition twice {A : Type} (h : Hook A) : Hook (A * A) :=
  const first <- h ;;
  const second <- h ;;
  ret (first, second).

(** A component body that reads both stores, the task store first:
    [const task = useTask ()] and then [const ui = useUI ()]. *)
Definition useTaskThenUI : Hook (JS.Value * JS.Value) :=
  const task <- useTask ;;
  const ui <- useUI ;;
  ret (task, ui).

(** The same body with the two calls in the other order. *)
Definition useUIThenTask : Hook (JS.Value * JS.Value) :=
  const ui <- useUI ;;
  const task <- useTask ;;
  ret (task, ui).

(* ================================================================== *)
(** ** The hooks on concrete component trees *)
(* ================================================================== *)

Module Scenario.

(** Heap identities of two state objects built by the Providers. *)
Definition taskState : JS.Value := JS.Object 1.
Definition uiState : JS.Value := JS.Object 2.

Definition bothProviders : Ancestry :=
  [mkProvider UIContext uiState; mkProvider TaskContext taskState].

(** The tree of the specification's example: a UI Provider only. *)
Definition uiProviderOnly : Ancestry := [mkProvider UIContext uiState].

Definition noProvider : Ancestry := [].

(** A Task Provider whose [value] is [null]. *)
Definition nullTaskProvider : Ancestry :=
  [mkProvider TaskContext JS.Null; mkProvider UIContext uiState].

(** A UI Provider whose [value] is [false], under a working Task
    Provider. *)
Definition falseUIProvider : Ancestry :=
  [mkProvider UIContext (JS.Boolean false); mkProvider TaskContext taskState].

(** A Task Provider whose [value] is the empty string. *)
Definition emptyStringTaskProvider : Ancestry :=
  [mkProvider TaskContext (JS.String "")].

(** An inner Task Provider shadows an outer one. *)
Definition nestedTaskProviders : Ancestry :=
  [mkProvider TaskContext (JS.Object 7); mkProvider TaskContext taskState].

End Scenario.

Module Nesting.

(** A Task Provider whose [value] is [null], mounted inside a UI Provider,
    itself inside a Task Provider that hands out a state object. *)
Definition innerProviders : Ancestry := [mkProvider UIContext Scenario.uiState].

Definition outerProviders : Ancestry :=
  [mkProvider TaskContext Scenario.taskState].

Definition maskedTaskProvider : Ancestry :=
  (innerProviders ++ mkProvider TaskContext JS.Null :: outerProviders)%list.

End Nesting.

Example useTask_bothProviders :
  useTask Scenario.bothProviders
  = (JS.Normal Scenario.taskState, Scenario.bothProviders).
Proof. reflexivity. Qed.

Example useUI_bothProviders :
  useUI Scenario.bothProviders
  = (JS.Normal Scenario.uiState, Scenario.bothProviders).
Proof. reflexivity. Qed.

Example useTask_uiProviderOnly :
  useTask Scenario.uiProviderOnly
  = (JS.Throw MissingTaskProvider, Scenario.uiProviderOnly).
Proof. reflexivity. Qed.

Example useUI_uiProviderOnly :
  useUI Scenario.uiProviderOnly
  = (JS.Normal Scenario.uiState, Scenario.uiProviderOnly).
Proof. reflexivity. Qed.

Example useTask_nullTaskProvider :
  outcome (useTask Scenario.nullTaskProvider) = JS.Throw MissingTaskProvider.
Proof. reflexivity. Qed.

Example useTask_nestedTaskProviders :
  outcome (useTask Scenario.nestedTaskProviders) = JS.Normal (JS.Object 7).
Proof. reflexivity. Qed.

(* ================================================================== *)
(** ** JavaScript truthiness and strict equality *)
(* ================================================================== *)

Section Truthiness.

(** The falsy values are the eight the language lists. *)
Lemma ToBoolean_false_iff (v : JS.Value) :
  JS.ToBoolean v = false <->
  v = JS.Undefined \/ v = JS.Null \/ v = JS.Boolean false \/
  (exists s, v = JS.Number (S754_zero s)) \/ v = JS.Number S754_nan \/
  v = JS.BigInt 0 \/ v = JS.String "".
Proof.
  split.
  - destruct v as [| |b|x|n|s|id|ref]; simpl; intros H; try discriminate.
    + now left.
    + now right; left.
    + subst b. now right; right; left.
    + destruct x as [sg|sg| |sg m e]; try discriminate.
      * right; right; right; left. now exists sg.
      * now right; right; right; right; left.
    + apply negb_false_iff, Z.eqb_eq in H. subst n.
      now right; right; right; right; right; left.
    + apply negb_false_iff, String.eqb_eq in H. subst s.
      now right; right; right; right; right; right.
  - intros [->|[->|[->|[[s ->]|[->|[->| ->]]]]]]; reflexivity.
Qed.

Lemma not_ToBoolean (v : JS.Value) : JS.not v = negb (JS.ToBoolean v).
Proof. reflexivity. Qed.

Lemma truthy_not_Undefined (v : JS.Value) :
  JS.ToBoolean v = true -> v <> JS.Undefined.
Proof. intros H ->. discriminate H. Qed.

Lemma Object_truthy (ref : positive) : JS.ToBoolean (JS.Object ref) = true.
Proof. reflexivity. Qed.

(** Number::equal is reflexive away from NaN. *)
Lemma SFeqb_refl (x : spec_float) : x <> S754_nan -> SFeqb x x = true.
Proof.
  intros Hx. unfold SFeqb.
  destruct x as [s|s| |s m e]; simpl.
  - reflexivity.
  - now destruct s.
  - now elim Hx.
  - rewrite Z.compare_refl.
    change (Pos.compare_cont Eq m m) with (Pos.compare m m).
    rewrite Pos.compare_refl. now destruct s.
Qed.

(** [v === v] for every value but NaN; in particular for every truthy
    value. *)
Lemma IsStrictlyEqual_refl (v : JS.Value) :
  v <> JS.Number S754_nan -> JS.IsStrictlyEqual v v = true.
Proof.
  destruct v as [| |b|x|n|s|id|ref]; simpl; intros Hv; trivial.
  - now destruct b.
  - apply SFeqb_refl. intros ->. now apply Hv.
  - apply Z.eqb_refl.
  - apply String.eqb_refl.
  - apply Pos.eqb_refl.
  - apply Pos.eqb_refl.
Qed.

Lemma IsStrictlyEqual_truthy (v : JS.Value) :
  JS.ToBoolean v = true -> JS.IsStrictlyEqual v v = true.
Proof.
  intros Hv. apply IsStrictlyEqual_refl. intros ->. discriminate Hv.
Qed.

Lemma NaN_not_self_equal :
  JS.IsStrictlyEqual (JS.Number S754_nan) (JS.Number S754_nan) = false.
Proof. reflexivity. Qed.

End Truthiness.


(* ================================================================== *)
(** ** Looking up the nearest Provider *)
(* ================================================================== *)

Section Lookup.

Lemma Context_eqb_eq (c d : Context) : Context_eqb c d = true <-> c = d.
Proof. destruct c, d; simpl; split; congruence. Qed.

Lemma Context_eqb_refl (c : Context) : Context_eqb c c = true.
Proof. now destruct c. Qed.

Lemma Context_eqb_neq (c d : Context) : c <> d -> Context_eqb c d = false.
Proof. destruct c, d; simpl; congruence. Qed.

Lemma container_no_provider (c : Context) (tree : Ancestry) :
  nearest c tree = None -> container c tree = JS.Undefined.
Proof. unfold container. now intros ->. Qed.

Lemma container_own_provider (c : Context) (v : JS.Value) (above : Ancestry) :
  container c (mkProvider c v :: above) = v.
Proof. unfold container. simpl. now rewrite Context_eqb_refl. Qed.

(** A Provider of another context, anywhere in the chain, is invisible. *)
Lemma nearest_skip (c d : Context) (v : JS.Value) (below above : Ancestry) :
  d <> c ->
  nearest c (below ++ mkProvider d v :: above)%list = nearest c (below ++ above)%list.
Proof.
  intros Hdc. induction below as [|p below IH]; simpl.
  - now rewrite (Context_eqb_neq d c Hdc).
  - destruct (Context_eqb (provides p) c); [reflexivity | exact IH].
Qed.

Lemma container_skip (c d : Context) (v : JS.Value) (below above : Ancestry) :
  d <> c ->
  container c (below ++ mkProvider d v :: above)%list = container c (below ++ above)%list.
Proof. intros Hdc. unfold container. now rewrite (nearest_skip c d v below above Hdc). Qed.

End Lookup.

(* ================================================================== *)
(** ** The generic accessor *)
(* ================================================================== *)

Section Accessor.

Variable c : Context.
Variable msg : string.

(** The accessor in one equation: a test on the container, nothing else. *)
Lemma contextAccessor_run (tree : Ancestry) :
  contextAccessor c msg tree =
  if JS.ToBoolean (container c tree)
  then (JS.Normal (container c tree), tree)
  else (JS.Throw (JS.new_Error msg), tree).
Proof.
  unfold contextAccessor, bind, useContext, throw, ret, JS.not.
  now destruct (JS.ToBoolean (container c tree)).
Qed.

Lemma contextAccessor_truthy (tree : Ancestry) :
  JS.ToBoolean (container c tree) = true ->
  contextAccessor c msg tree = (JS.Normal (container c tree), tree).
Proof. intros H. now rewrite contextAccessor_run, H. Qed.

Lemma contextAccessor_falsy (tree : Ancestry) :
  JS.ToBoolean (container c tree) = false ->
  contextAccessor c msg tree = (JS.Throw (JS.new_Error msg), tree).
Proof. intros H. now rewrite contextAccessor_run, H. Qed.

Lemma contextAccessor_ambient (tree : Ancestry) :
  ambient (contextAccessor c msg tree) = tree.
Proof.
  rewrite contextAccessor_run. now destruct (JS.ToBoolean (container c tree)).
Qed.

Lemma contextAccessor_Normal_inv (tree : Ancestry) (v : JS.Value) :
  outcome (contextAccessor c msg tree) = JS.Normal v ->
  v = container c tree /\ JS.ToBoolean v = true.
Proof.
  rewrite contextAccessor_run.
  destruct (JS.ToBoolean (container c tree)) eqn:Hb; simpl; intros H.
  - injection H as <-. now split.
  - discriminate H.
Qed.

Lemma contextAccessor_Throw_inv (tree : Ancestry) (e : JS.Error) :
  outcome (contextAccessor c msg tree) = JS.Throw e ->
  e = JS.new_Error msg /\ JS.ToBoolean (container c tree) = false.
Proof.
  rewrite contextAccessor_run.
  destruct (JS.ToBoolean (container c tree)) eqn:Hb; simpl; intros H.
  - discriminate H.
  - injection H as <-. now split.
Qed.

(** The outcome is a function of the container alone. *)
Lemma contextAccessor_outcome_container (t1 t2 : Ancestry) :
  container c t1 = container c t2 ->
  outcome (contextAccessor c msg t1) = outcome (contextAccessor c msg t2).
Proof.
  intros H. rewrite !contextAccessor_run, H.
  now destruct (JS.ToBoolean (container c t2)).
Qed.

End Accessor.

Lemma useTask_instance :
  useTask = contextAccessor TaskContext "useTask must be used within a TaskProvider".
Proof. reflexivity. Qed.

Lemma useUI_instance :
  useUI = contextAccessor UIContext "useUI must be used within a UIProvider".
Proof. reflexivity. Qed.

Lemma accessor_instance (c : Context) :
  accessor c = contextAccessor c (JS.message (MissingProviderError c)).
Proof. now destruct c. Qed.

Lemma new_Error_message (e : JS.Error) :
  JS.name e = "Error" -> JS.new_Error (JS.message e) = e.
Proof. destruct e as [n m]. simpl. now intros ->. Qed.

Lemma MissingProviderError_new (c : Context) :
  JS.new_Error (JS.message (MissingProviderError c)) = MissingProviderError c.
Proof. now destruct c. Qed.

Lemma accessor_run (c : Context) (tree : Ancestry) :
  accessor c tree =
  if JS.ToBoolean (container c tree)
  then (JS.Normal (container c tree), tree)
  else (JS.Throw (MissingProviderError c), tree).
Proof.
  rewrite accessor_instance, contextAccessor_run.
  now rewrite MissingProviderError_new.
Qed.

(* ================================================================== *)
(** ** Returning the state *)
(* ================================================================== *)

(** C1, as worded, does not hold.  The claim reads: for every value [state]
    other than [undefined], [useTask] returns [state] when the task context
    container holds it.  [null] is such a value, and a container holding
    [null] makes [useTask] throw. *)
Lemma useTask_identity_fails_on_null :
  ~ (forall (tree : Ancestry) (state : JS.Value),
        state <> JS.Undefined ->
        container TaskContext tree = state ->
        outcome (useTask tree) = JS.Normal state).
Proof.
  intros claim.
  specialize (claim Scenario.nullTaskProvider JS.Null).
  assert (H : outcome (useTask Scenario.nullTaskProvider) = JS.Normal JS.Null).
  { apply claim; [discriminate | reflexivity]. }
  discriminate H.
Qed.

(** C1, amended: for every truthy value [state], [useTask] run where the
    task context container holds [state] returns exactly [state] and leaves
    the ambient state as it was; likewise [useUI] returns exactly the truthy
    value the UI context container holds. *)
Theorem accessor_returns_truthy_state (tree : Ancestry) (state : JS.Value) :
  JS.ToBoolean state = true ->
  (container TaskContext tree = state -> useTask tree = (JS.Normal state, tree)) /\
  (container UIContext tree = state -> useUI tree = (JS.Normal state, tree)).
Proof.
  intros Htruthy. split; intros Hholds.
  - rewrite useTask_instance, contextAccessor_truthy; rewrite Hholds; trivial.
  - rewrite useUI_instance, contextAccessor_truthy; rewrite Hholds; trivial.
Qed.

Lemma accessor_returns_truthy_state_witness :
  JS.ToBoolean Scenario.taskState = true /\
  container TaskContext Scenario.bothProviders = Scenario.taskState /\
  useTask Scenario.bothProviders
  = (JS.Normal Scenario.taskState, Scenario.bothProviders).
Proof.
  split; [reflexivity | split; [reflexivity |]].
  exact (proj1 (accessor_returns_truthy_state
                  Scenario.bothProviders Scenario.taskState eq_refl) eq_refl).
Defined.

(** State objects, which is what the Providers hand out, are truthy: for
    them the identity holds as C1 words it. *)
Lemma accessor_returns_object (c : Context) (tree : Ancestry) (ref : positive) :
  container c tree = JS.Object ref ->
  accessor c tree = (JS.Normal (JS.Object ref), tree).
Proof. intros H. rewrite accessor_run, H. reflexivity. Qed.

(* ================================================================== *)
(** ** Failing without a Provider *)
(* ================================================================== *)

(** C2, as worded, does not hold.  The claim has [useTask] throw if and only
    if the container is absent, that is [undefined]; a Task Provider whose
    value is [null] has the hook throw on a container that is not
    [undefined]. *)
Lemma useTask_throws_on_present_null :
  ~ (forall tree : Ancestry,
        JS.throws (outcome (useTask tree)) <->
        container TaskContext tree = JS.Undefined).
Proof.
  intros claim.
  destruct (claim Scenario.nullTaskProvider) as [Hthrows _].
  assert (H : container TaskContext Scenario.nullTaskProvider = JS.Undefined).
  { apply Hthrows. now exists MissingTaskProvider. }
  discriminate H.
Qed.

(** C2, amended: with no Provider of its context in the ancestry, and
    whenever the container is [undefined], an accessor fails with its
    missing-Provider error; it throws if and only if the container holds a
    falsy value; and whenever it returns, the result is the container's
    value, is truthy, and so is not [undefined]. *)
Theorem accessor_throws_iff_falsy (c : Context) (tree : Ancestry) :
  (nearest c tree = None ->
   outcome (accessor c tree) = JS.Throw (MissingProviderError c)) /\
  (container c tree = JS.Undefined ->
   outcome (accessor c tree) = JS.Throw (MissingProviderError c)) /\
  (JS.throws (outcome (accessor c tree)) <->
   JS.ToBoolean (container c tree) = false) /\
  (forall v : JS.Value,
      outcome (accessor c tree) = JS.Normal v ->
      v = container c tree /\ JS.ToBoolean v = true /\ v <> JS.Undefined).
Proof.
  assert (Hundef : container c tree = JS.Undefined ->
                   outcome (accessor c tree) = JS.Throw (MissingProviderError c)).
  { intros H. rewrite accessor_run, H. reflexivity. }
  split; [| split; [exact Hundef | split]].
  - intros Hnone. apply Hundef. now apply container_no_provider.
  - rewrite accessor_run.
    destruct (JS.ToBoolean (container c tree)); simpl; split; trivial.
    + intros [e He]. discriminate He.
    + discriminate.
    + intros _. now exists (MissingProviderError c).
  - intros v Hv. rewrite accessor_instance in Hv.
    apply contextAccessor_Normal_inv in Hv. destruct Hv as [-> Htruthy].
    repeat split; trivial. now apply truthy_not_Undefined.
Qed.

Lemma accessor_throws_iff_falsy_witness :
  nearest TaskContext Scenario.uiProviderOnly = None /\
  outcome (useTask Scenario.uiProviderOnly) = JS.Throw MissingTaskProvider.
Proof.
  split; [reflexivity |].
  exact (proj1 (accessor_throws_iff_falsy TaskContext Scenario.uiProviderOnly)
           eq_refl).
Defined.

(* ================================================================== *)
(** ** The only failure mode *)
(* ================================================================== *)

(** C3, as worded, does not hold.  The claim has the accessors never throw
    once the container is present, that is not [undefined]; under a UI
    Provider whose value is [false] the container is present and [useUI]
    throws. *)
Lemma present_container_may_throw :
  ~ (forall (c : Context) (tree : Ancestry),
        container c tree <> JS.Undefined ->
        ~ JS.throws (outcome (accessor c tree))).
Proof.
  intros claim.
  apply (claim UIContext Scenario.falseUIProvider).
  - discriminate.
  - now exists MissingUIProvider.
Qed.

(** C3, amended: the missing-Provider error is the only failure of the
    accessors: every error one of them throws is that error; and under the
    precondition that the container holds a truthy value the accessor does
    not throw, it returns. *)
Theorem accessor_only_failure_mode (c : Context) (tree : Ancestry) :
  (forall e : JS.Error,
      outcome (accessor c tree) = JS.Throw e -> e = MissingProviderError c) /\
  (JS.ToBoolean (container c tree) = true ->
   ~ JS.throws (outcome (accessor c tree)) /\
   JS.returns (outcome (accessor c tree))).
Proof.
  split.
  - intros e He. rewrite accessor_instance in He.
    apply contextAccessor_Throw_inv in He. destruct He as [-> _].
    apply MissingProviderError_new.
  - intros Htruthy. rewrite accessor_run, Htruthy. simpl. split.
    + intros [e He]. discriminate He.
    + now exists (container c tree).
Qed.

Lemma accessor_only_failure_mode_witness :
  JS.ToBoolean (container UIContext Scenario.uiProviderOnly) = true /\
  ~ JS.throws (outcome (useUI Scenario.uiProviderOnly)).
Proof.
  split; [reflexivity |].
  exact (proj1 (proj2 (accessor_only_failure_mode UIContext Scenario.uiProviderOnly)
                  eq_refl)).
Defined.

(* ================================================================== *)
(** ** The error messages *)
(* ================================================================== *)

(** C4: when [useTask] fails because no TaskProvider is in the ancestry, the
    error it throws carries exactly the message "useTask must be used within
    a TaskProvider"; indeed every error [useTask] throws carries it. *)
Theorem useTask_error_message (tree : Ancestry) :
  (nearest TaskContext tree = None ->
   exists e : JS.Error,
     outcome (useTask tree) = JS.Throw e /\
     JS.message e = "useTask must be used within a TaskProvider") /\
  (forall e : JS.Error,
      outcome (useTask tree) = JS.Throw e ->
      JS.message e = "useTask must be used within a TaskProvider").
Proof.
  split.
  - intros Hnone. exists MissingTaskProvider. split; [| reflexivity].
    rewrite useTask_instance, contextAccessor_falsy; [reflexivity |].
    now rewrite (container_no_provider _ _ Hnone).
  - intros e He. rewrite useTask_instance in He.
    apply contextAccessor_Throw_inv in He. now destruct He as [-> _].
Qed.

Lemma useTask_error_message_witness :
  nearest TaskContext Scenario.uiProviderOnly = None /\
  exists e : JS.Error,
    outcome (useTask Scenario.uiProviderOnly) = JS.Throw e /\
    JS.message e = "useTask must be used within a TaskProvider".
Proof.
  split; [reflexivity |].
  exact (proj1 (useTask_error_message Scenario.uiProviderOnly) eq_refl).
Defined.

(** C10: when [useUI] fails because no UIProvider is in the ancestry, the
    error it throws carries exactly the message "useUI must be used within a
    UIProvider", and every error [useUI] throws carries it.  [useTask] does
    throw, in every tree without a TaskProvider, and the message of its
    error is not the message of [useUI]: whenever the two hooks throw, their
    errors differ by message. *)
Theorem useUI_error_message (tree : Ancestry) :
  (nearest UIContext tree = None ->
   exists e : JS.Error,
     outcome (useUI tree) = JS.Throw e /\
     JS.message e = "useUI must be used within a UIProvider") /\
  (forall e : JS.Error,
      outcome (useUI tree) = JS.Throw e ->
      JS.message e = "useUI must be used within a UIProvider") /\
  (forall (tree' : Ancestry) (e e' : JS.Error),
      outcome (useUI tree) = JS.Throw e ->
      outcome (useTask tree') = JS.Throw e' ->
      JS.message e <> JS.message e') /\
  (forall tree' : Ancestry,
      nearest TaskContext tree' = None ->
      exists e' : JS.Error,
        outcome (useTask tree') = JS.Throw e' /\
        JS.message e' = "useTask must be used within a TaskProvider" /\
        JS.message e' <> "useUI must be used within a UIProvider").
Proof.
  assert (Hmsg : forall e, outcome (useUI tree) = JS.Throw e ->
                           JS.message e = "useUI must be used within a UIProvider").
  { intros e He. rewrite useUI_instance in He.
    apply contextAccessor_Throw_inv in He. now destruct He as [-> _]. }
  split; [| split; [exact Hmsg | split]].
  - intros Hnone. exists MissingUIProvider. split; [| reflexivity].
    rewrite useUI_instance, contextAccessor_falsy; [reflexivity |].
    now rewrite (container_no_provider _ _ Hnone).
  - intros tree' e e' He He'. rewrite (Hmsg e He).
    rewrite useTask_instance in He'.
    apply contextAccessor_Throw_inv in He'. destruct He' as [-> _].
    simpl. discriminate.
  - intros tree' Hnone. exists MissingTaskProvider.
    split; [| split; [reflexivity | simpl; discriminate]].
    rewrite useTask_instance, contextAccessor_falsy; [reflexivity |].
    now rewrite (container_no_provider _ _ Hnone).
Qed.

Lemma useUI_error_message_witness :
  nearest UIContext Scenario.noProvider = None /\
  nearest TaskContext Scenario.uiProviderOnly = None /\
  (exists e : JS.Error,
      outcome (useUI Scenario.noProvider) = JS.Throw e /\
      JS.message e = "useUI must be used within a UIProvider") /\
  (exists e' : JS.Error,
      outcome (useTask Scenario.uiProviderOnly) = JS.Throw e' /\
      JS.message e' = "useTask must be used within a TaskProvider" /\
      JS.message e' <> "useUI must be used within a UIProvider") /\
  JS.message MissingUIProvider <> JS.message MissingTaskProvider.
Proof.
  split; [reflexivity | split; [reflexivity |]].
  pose proof (useUI_error_message Scenario.noProvider) as H.
  split; [exact (proj1 H eq_refl) | split].
  - exact (proj2 (proj2 (proj2 H)) Scenario.uiProviderOnly eq_refl).
  - exact (proj1 (proj2 (proj2 H)) Scenario.uiProviderOnly
             MissingUIProvider MissingTaskProvider eq_refl eq_refl).
Defined.

(* ================================================================== *)
(** ** Independence of the two accessors *)
(* ================================================================== *)

(** C5: the outcome of [useUI] (the value returned or the error thrown) is
    the same in any two ambient states that agree on the UI context
    container, whatever the task context container is in either; and the
    outcome of [useTask] is the same in any two ambient states that agree on
    the task context container.  In particular a Provider of the other
    context, mounted anywhere in the ancestry with any value, changes
    nothing. *)
Theorem accessors_independent (t1 t2 : Ancestry) :
  (container UIContext t1 = container UIContext t2 ->
   outcome (useUI t1) = outcome (useUI t2)) /\
  (container TaskContext t1 = container TaskContext t2 ->
   outcome (useTask t1) = outcome (useTask t2)) /\
  (forall v : JS.Value,
      outcome (useUI (t1 ++ mkProvider TaskContext v :: t2)%list)
      = outcome (useUI (t1 ++ t2)%list)) /\
  (forall v : JS.Value,
      outcome (useTask (t1 ++ mkProvider UIContext v :: t2)%list)
      = outcome (useTask (t1 ++ t2)%list)).
Proof.
  repeat split.
  - rewrite useUI_instance. apply contextAccessor_outcome_container.
  - rewrite useTask_instance. apply contextAccessor_outcome_container.
  - intros v. rewrite useUI_instance.
    apply contextAccessor_outcome_container, container_skip. discriminate.
  - intros v. rewrite useTask_instance.
    apply contextAccessor_outcome_container, container_skip. discriminate.
Qed.

Lemma accessors_independent_witness :
  (container UIContext Scenario.bothProviders
   = container UIContext Scenario.uiProviderOnly /\
   container TaskContext Scenario.bothProviders
   <> container TaskContext Scenario.uiProviderOnly /\
   outcome (useUI Scenario.bothProviders)
   = outcome (useUI Scenario.uiProviderOnly)) /\
  (container TaskContext Scenario.bothProviders
   = container TaskContext Scenario.falseUIProvider /\
   outcome (useTask Scenario.bothProviders)
   = outcome (useTask Scenario.falseUIProvider)).
Proof.
  split; [split; [reflexivity | split; [discriminate |]] |].
  - exact (proj1 (accessors_independent
                    Scenario.bothProviders Scenario.uiProviderOnly) eq_refl).
  - split; [reflexivity |].
    exact (proj1 (proj2 (accessors_independent
                           Scenario.bothProviders Scenario.falseUIProvider))
             eq_refl).
Defined.

(* ================================================================== *)
(** ** Repeated calls and purity *)
(* ================================================================== *)

(** C7: a call of [useTask] or [useUI] has no side effect: whether it
    returns or throws, the ambient state after the call is the ambient state
    before it, and so is each of the two context containers. *)
Theorem accessor_pure_read (c : Context) (tree : Ancestry) :
  ambient (accessor c tree) = tree /\
  (forall d : Context, container d (ambient (accessor c tree)) = container d tree).
Proof.
  assert (H : ambient (accessor c tree) = tree).
  { rewrite accessor_instance. apply contextAccessor_ambient. }
  split; [exact H |]. intros d. now rewrite H.
Qed.

(** C6: the accessors are deterministic: a second call of [useTask] (or
    [useUI]), made in the state the first call left, has the outcome of the
    first; when the first call returns [v], two calls in a row return [v]
    twice and the two results are equal under [===] as well; when the first
    call throws, the two calls in a row throw the same error. *)
Theorem repeated_calls_agree (c : Context) (tree : Ancestry) :
  outcome (accessor c (ambient (accessor c tree))) = outcome (accessor c tree) /\
  (forall v : JS.Value,
      outcome (accessor c tree) = JS.Normal v ->
      outcome (twice (accessor c) tree) = JS.Normal (v, v) /\
      JS.IsStrictlyEqual v v = true) /\
  (forall e : JS.Error,
      outcome (accessor c tree) = JS.Throw e ->
      outcome (twice (accessor c) tree) = JS.Throw e).
Proof.
  assert (Hsame : ambient (accessor c tree) = tree).
  { rewrite accessor_instance. apply contextAccessor_ambient. }
  split; [now rewrite Hsame | split].
  - intros v Hv.
    assert (Hinv := Hv). rewrite accessor_instance in Hinv.
    apply contextAccessor_Normal_inv in Hinv. destruct Hinv as [_ Htruthy].
    split; [| now apply IsStrictlyEqual_truthy].
    unfold twice, bind, ret.
    destruct (accessor c tree) as [r tree'] eqn:Hrun.
    unfold outcome in Hv. simpl in Hv. subst r.
    unfold ambient in Hsame. simpl in Hsame. subst tree'.
    now rewrite Hrun.
  - intros e He. unfold twice, bind.
    destruct (accessor c tree) as [r tree'] eqn:Hrun.
    unfold outcome in He. simpl in He. now subst r.
Qed.

Lemma repeated_calls_agree_witness :
  outcome (useTask Scenario.nestedTaskProviders) = JS.Normal (JS.Object 7) /\
  outcome (twice useTask Scenario.nestedTaskProviders)
  = JS.Normal (JS.Object 7, JS.Object 7).
Proof.
  split; [reflexivity |].
  exact (proj1 (proj1 (proj2 (repeated_calls_agree
                                TaskContext Scenario.nestedTaskProviders))
                  (JS.Object 7) eq_refl)).
Defined.

(* ================================================================== *)
(** ** One pattern, two instances *)
(* ================================================================== *)

(** C8: [useTask] and [useUI] are the generic accessor at their own context
    and message; as functions of the container value they agree: when the
    task context container and the UI context container hold the same value
    [v], [useTask] returns [v] exactly when [useUI] returns [v], and
    [useTask] throws exactly when [useUI] throws. *)
Theorem hooks_share_one_pattern :
  useTask = contextAccessor TaskContext (JS.message MissingTaskProvider) /\
  useUI = contextAccessor UIContext (JS.message MissingUIProvider) /\
  (forall (t1 t2 : Ancestry) (v : JS.Value),
      container TaskContext t1 = v ->
      container UIContext t2 = v ->
      (outcome (useTask t1) = JS.Normal v <-> outcome (useUI t2) = JS.Normal v) /\
      (JS.throws (outcome (useTask t1)) <-> JS.throws (outcome (useUI t2)))).
Proof.
  split; [reflexivity | split; [reflexivity |]].
  intros t1 t2 v H1 H2.
  rewrite useTask_instance, useUI_instance, !contextAccessor_run, H1, H2.
  destruct (JS.ToBoolean v); simpl; split; split; trivial.
  - intros H; discriminate H.
  - intros H; discriminate H.
  - intros _. now exists (JS.new_Error "useUI must be used within a UIProvider").
  - intros _. now exists (JS.new_Error "useTask must be used within a TaskProvider").
Qed.

Lemma hooks_share_one_pattern_witness :
  container TaskContext Scenario.emptyStringTaskProvider = JS.String "" /\
  container UIContext [mkProvider UIContext (JS.String "")] = JS.String "" /\
  (JS.throws (outcome (useTask Scenario.emptyStringTaskProvider)) <->
   JS.throws (outcome (useUI [mkProvider UIContext (JS.String "")]))).
Proof.
  split; [reflexivity | split; [reflexivity |]].
  exact (proj2 (proj2 (proj2 hooks_share_one_pattern)
                  Scenario.emptyStringTaskProvider
                  [mkProvider UIContext (JS.String "")]
                  (JS.String "") eq_refl eq_refl)).
Defined.

(* ================================================================== *)
(** ** Falsy state *)
(* ================================================================== *)

(** C9: the presence check of both hooks is the falsiness test [!context]:
    [undefined], [null], [false], [0], the empty string and NaN all pass it,
    and for every falsy value held by the container the hook throws its
    missing-Provider error, which is the outcome it has with no Provider at
    all. *)
Theorem falsy_state_is_missing_provider
  (c : Context) (tree : Ancestry) (v : JS.Value) :
  JS.ToBoolean v = false ->
  container c tree = v ->
  JS.not v = true /\
  outcome (accessor c tree) = JS.Throw (MissingProviderError c) /\
  outcome (accessor c tree) = outcome (accessor c []) /\
  Forall (fun falsy => JS.not falsy = true)
    [JS.Undefined; JS.Null; JS.Boolean false; JS.Number (S754_zero false);
     JS.String ""; JS.Number S754_nan].
Proof.
  intros Hfalsy Hholds. split; [| split; [| split]].
  - unfold JS.not. now rewrite Hfalsy.
  - rewrite accessor_run, Hholds, Hfalsy. reflexivity.
  - rewrite !accessor_run, Hholds, Hfalsy. reflexivity.
  - repeat constructor.
Qed.

Lemma falsy_state_is_missing_provider_witness :
  JS.ToBoolean (JS.Boolean false) = false /\
  container UIContext Scenario.falseUIProvider = JS.Boolean false /\
  outcome (useUI Scenario.falseUIProvider) = JS.Throw MissingUIProvider /\
  outcome (useUI Scenario.falseUIProvider) = outcome (useUI Scenario.noProvider).
Proof.
  split; [reflexivity | split; [reflexivity |]].
  pose proof (falsy_state_is_missing_provider
                UIContext Scenario.falseUIProvider (JS.Boolean false)
                eq_refl eq_refl) as H.
  exact (conj (proj1 (proj2 H)) (proj1 (proj2 (proj2 H)))).
Defined.

(* ================================================================== *)
(** ** Further properties of the hooks *)
(* ================================================================== *)

Lemma nearest_app_none (c : Context) (below rest : Ancestry) :
  nearest c below = None ->
  nearest c (below ++ rest)%list = nearest c rest.
Proof.
  induction below as [|p below IH]; simpl; [reflexivity |].
  destruct (Context_eqb (provides p) c); [discriminate | exact IH].
Qed.

(** X1: the hooks throw with [new Error], not with an error class of their
    own: every error [useTask] throws and every error [useUI] throws has the
    name "Error".  A handler cannot tell the two failures apart by name; the
    messages are what differs. *)
Theorem thrown_errors_are_named_Error (t1 t2 : Ancestry) (e1 e2 : JS.Error) :
  outcome (useTask t1) = JS.Throw e1 ->
  outcome (useUI t2) = JS.Throw e2 ->
  JS.name e1 = "Error" /\ JS.name e2 = "Error" /\
  JS.name e1 = JS.name e2 /\ JS.message e1 <> JS.message e2.
Proof.
  intros H1 H2.
  rewrite useTask_instance in H1. apply contextAccessor_Throw_inv in H1.
  rewrite useUI_instance in H2. apply contextAccessor_Throw_inv in H2.
  destruct H1 as [-> _], H2 as [-> _]. simpl.
  repeat split; discriminate.
Qed.

Lemma thrown_errors_are_named_Error_witness :
  outcome (useTask Scenario.noProvider) = JS.Throw MissingTaskProvider /\
  outcome (useUI Scenario.noProvider) = JS.Throw MissingUIProvider /\
  JS.name MissingTaskProvider = "Error" /\
  JS.name MissingUIProvider = "Error" /\
  JS.message MissingTaskProvider <> JS.message MissingUIProvider.
Proof.
  split; [reflexivity | split; [reflexivity |]].
  pose proof (thrown_errors_are_named_Error
                Scenario.noProvider Scenario.noProvider
                MissingTaskProvider MissingUIProvider eq_refl eq_refl) as H.
  exact (conj (proj1 H)
           (conj (proj1 (proj2 H)) (proj2 (proj2 (proj2 H))))).
Defined.

(** X2: the nearest Provider of the hook's context decides alone.  When no
    Provider of the context sits below a Provider with value [v], the hook
    returns [v] if [v] is truthy and throws its missing-Provider error if
    [v] is falsy, whatever is mounted further up: a falsy inner Provider
    masks a working outer one. *)
Theorem nearest_provider_decides
  (c : Context) (below above : Ancestry) (v : JS.Value) :
  nearest c below = None ->
  accessor c (below ++ mkProvider c v :: above)%list
  = (if JS.ToBoolean v then JS.Normal v else JS.Throw (MissingProviderError c),
     (below ++ mkProvider c v :: above)%list).
Proof.
  intros Hbelow. rewrite accessor_run.
  unfold container. rewrite (nearest_app_none c below _ Hbelow). simpl.
  rewrite Context_eqb_refl. now destruct (JS.ToBoolean v).
Qed.

Lemma nearest_provider_decides_witness :
  nearest TaskContext Nesting.innerProviders = None /\
  nearest TaskContext Nesting.outerProviders = Some Scenario.taskState /\
  useTask Nesting.maskedTaskProvider
  = (JS.Throw MissingTaskProvider, Nesting.maskedTaskProvider).
Proof.
  split; [reflexivity | split; [reflexivity |]].
  exact (nearest_provider_decides TaskContext Nesting.innerProviders
           Nesting.outerProviders JS.Null eq_refl).
Defined.

(** X3: a hook throws exactly when its container holds one of the eight
    falsy values of the language: [undefined], [null], [false], [+0], [-0],
    NaN, [0n] or the empty string.  Every other value is returned. *)
Theorem accessor_throws_exactly_on (c : Context) (tree : Ancestry) :
  let held := container c tree in
  let falsy :=
    held = JS.Undefined \/ held = JS.Null \/ held = JS.Boolean false \/
    (exists s : bool, held = JS.Number (S754_zero s)) \/
    held = JS.Number S754_nan \/ held = JS.BigInt 0 \/ held = JS.String "" in
  (JS.throws (outcome (accessor c tree)) <-> falsy) /\
  (outcome (accessor c tree) = JS.Normal held <-> ~ falsy).
Proof.
  cbv zeta. rewrite <- ToBoolean_false_iff, accessor_run.
  destruct (JS.ToBoolean (container c tree)); simpl; split; split;
    try discriminate; try congruence.
  - intros [e He]. discriminate He.
  - intros _. now exists (MissingProviderError c).
Qed.

(** X4: in a component that calls [useTask] and then [useUI], the
    calls return the pair of the two container values exactly when both are
    truthy; a falsy task container gives the error of [useTask] whatever the
    UI container holds; a truthy task container with a falsy UI container
    gives the error of [useUI]; and the ambient state is left as it was. *)
Theorem useTaskThenUI_outcome (tree : Ancestry) :
  outcome (useTaskThenUI tree)
  = (if JS.ToBoolean (container TaskContext tree) then
       if JS.ToBoolean (container UIContext tree) then
         JS.Normal (container TaskContext tree, container UIContext tree)
       else JS.Throw MissingUIProvider
     else JS.Throw MissingTaskProvider) /\
  ambient (useTaskThenUI tree) = tree.
Proof.
  unfold useTaskThenUI, bind, ret.
  rewrite useTask_instance, contextAccessor_run.
  destruct (JS.ToBoolean (container TaskContext tree)); [| now split].
  rewrite useUI_instance, contextAccessor_run.
  now destruct (JS.ToBoolean (container UIContext tree)).
Qed.

Lemma useUIThenTask_outcome (tree : Ancestry) :
  outcome (useUIThenTask tree)
  = (if JS.ToBoolean (container UIContext tree) then
       if JS.ToBoolean (container TaskContext tree) then
         JS.Normal (container TaskContext tree, container UIContext tree)
       else JS.Throw MissingTaskProvider
     else JS.Throw MissingUIProvider).
Proof.
  unfold useUIThenTask, bind, ret.
  rewrite useUI_instance, contextAccessor_run.
  destruct (JS.ToBoolean (container UIContext tree)); [| reflexivity].
  rewrite useTask_instance, contextAccessor_run.
  now destruct (JS.ToBoolean (container TaskContext tree)).
Qed.

Lemma useTaskThenUI_run (tree : Ancestry) :
  outcome (useTaskThenUI tree)
  = (if JS.ToBoolean (container TaskContext tree) then
       if JS.ToBoolean (container UIContext tree) then
         JS.Normal (container TaskContext tree, container UIContext tree)
       else JS.Throw MissingUIProvider
     else JS.Throw MissingTaskProvider).
Proof.
  unfold useTaskThenUI, bind, ret.
  rewrite useTask_instance, contextAccessor_run.
  destruct (JS.ToBoolean (container TaskContext tree)); [| reflexivity].
  rewrite useUI_instance, contextAccessor_run.
  now destruct (JS.ToBoolean (container UIContext tree)).
Qed.

(** X5: the order in which a component calls the two hooks does not change
    whether it gets its values nor which values it gets, but it does decide
    the error: the two orders return the same pair in the same trees and
    throw in the same trees, and when both containers are falsy each order
    throws the error of the hook it calls first. *)
Theorem call_order_decides_the_error_only (tree : Ancestry) :
  (forall pair : JS.Value * JS.Value,
      outcome (useTaskThenUI tree) = JS.Normal pair <->
      outcome (useUIThenTask tree) = JS.Normal pair) /\
  (JS.throws (outcome (useTaskThenUI tree)) <->
   JS.throws (outcome (useUIThenTask tree))) /\
  (JS.ToBoolean (container TaskContext tree) = false ->
   JS.ToBoolean (container UIContext tree) = false ->
   outcome (useTaskThenUI tree) = JS.Throw MissingTaskProvider /\
   outcome (useUIThenTask tree) = JS.Throw MissingUIProvider).
Proof.
  rewrite useTaskThenUI_run, useUIThenTask_outcome.
  destruct (JS.ToBoolean (container TaskContext tree)),
           (JS.ToBoolean (container UIContext tree));
    (split; [| split]);
    try (intros pair; split; intros H; (exact H || discriminate H));
    try (split; intros [e He]; (discriminate He || eexists; reflexivity));
    try (intros Ht Hu; (discriminate Ht || discriminate Hu || now split)).
Qed.

Lemma call_order_decides_the_error_only_witness :
  JS.ToBoolean (container TaskContext Scenario.emptyStringTaskProvider) = false /\
  JS.ToBoolean (container UIContext Scenario.emptyStringTaskProvider) = false /\
  outcome (useTaskThenUI Scenario.emptyStringTaskProvider)
  = JS.Throw MissingTaskProvider /\
  outcome (useUIThenTask Scenario.emptyStringTaskProvider)
  = JS.Throw MissingUIProvider.
Proof.
  split; [reflexivity | split; [reflexivity |]].
  exact (proj2 (proj2 (call_order_decides_the_error_only
                         Scenario.emptyStringTaskProvider))
           eq_refl eq_refl).
Defined.
